(** * Bootstrap gate of the xagent frontend

    A shallow embedding of
    - [frontend/src/lib/auth-pages.ts]        (route classification),
    - the [LayoutContent] component            (route gate),
    - [frontend/src/hooks/use-setup-status.ts] (setup-status probe),
    with the properties stated about them. *)

From Stdlib Require Import Floats.SpecFloat.
From stdpp Require Import base option list strings gmap.

Local Open Scope string_scope.
Local Open Scope list_scope.
Local Set Warnings "-register-all".

(** ** JavaScript values, as far as the probe looks at them *)

Module JS.

(** The value [await response.json()] resolves to, plus [undefined], which
    a property read produces.  A number is an IEEE-754 double. *)
Inductive Value : Type :=
| Undefined
| Null
| Bool (b : bool)
| Number (x : spec_float)
| String (s : string)
| Array (items : list Value)
| Object (props : gmap string Value).

(** [Boolean(v)]: the ToBoolean abstract operation. *)
Definition Boolean (v : Value) : bool :=
  match v with
  | Undefined | Null => false
  | Bool b => b
  | Number (S754_zero _) | Number S754_nan => false
  | Number _ => true
  | String s => negb (s =? "")%string
  | Array _ | Object _ => true
  end.

(** [v.key] for a key that no prototype defines and that is not an array
    index: [None] is the TypeError thrown on [null] and [undefined]. *)
Definition get (v : Value) (key : string) : option Value :=
  match v with
  | Undefined | Null => None
  | Object props => Some (default Undefined (props !! key))
  | Bool _ | Number _ | String _ | Array _ => Some Undefined
  end.

End JS.

(** ** Route classification: [frontend/src/lib/auth-pages.ts] *)

Definition AUTH_PUBLIC_PATHS : list string := ["/login"; "/register"; "/setup"].

(** [Array.prototype.includes] on an array of strings. *)
Definition includes (xs : list string) (x : string) : bool :=
  existsb (String.eqb x) xs.

(** [pathname : string | null]; [!pathname] holds for [null] and for the
    empty string. *)
Definition isAuthPublicPath (pathname : option string) : bool :=
  match pathname with
  | None => false
  | Some p => if (p =? "")%string then false else includes AUTH_PUBLIC_PATHS p
  end.

(** ** Route gate: the [LayoutContent] component *)

Module Layout.

Inductive ReactNode : Type :=
| Text (s : string)
| Fragment (children : list ReactNode)
| Host (tag className : string) (children : list ReactNode)
| Sidebar
| AppProvider (token : option string) (children : list ReactNode).

(** [token || undefined] for [token : string | null]: [None] is
    [undefined], the provider's value for no token. *)
Definition or_undefined (token : option string) : option string :=
  match token with
  | None => None
  | Some t => if (t =? "")%string then None else Some t
  end.

Definition LayoutContent (pathname token : option string)
    (children : ReactNode) : ReactNode :=
  let isAuthPage := isAuthPublicPath pathname in
  if isAuthPage then Fragment [children]
  else
    AppProvider (or_undefined token)
      [Host "div" "flex h-screen bg-background relative"
         [Sidebar;
          Host "main" "flex-1 flex flex-col overflow-hidden bg-background"
            [children]]].

(** What React commits for a node: fragments contribute their children
    and nothing of their own. *)
Fixpoint commit (n : ReactNode) : list ReactNode :=
  match n with
  | Text s => [Text s]
  | Fragment children => flat_map commit children
  | Host tag className children => [Host tag className (flat_map commit children)]
  | Sidebar => [Sidebar]
  | AppProvider token children => [AppProvider token (flat_map commit children)]
  end.

(** The number of nodes of a tree, and of a list of trees. *)
Fixpoint nodes (n : ReactNode) : nat :=
  match n with
  | Text _ | Sidebar => 1
  | Fragment children
  | Host _ _ children
  | AppProvider _ children => S (list_sum (map nodes children))
  end.

Definition total (ns : list ReactNode) : nat := list_sum (map nodes ns).

(** The node is a shared application context around a shell of exactly two
    regions, the navigation panel and a content region holding [body]. *)
Definition shell_around (token : option string) (body n : ReactNode) : Prop :=
  ∃ outer content,
    n = AppProvider token [Host "div" outer [Sidebar; Host "main" content [body]]].

End Layout.

(** ** Setup-status probe: [frontend/src/hooks/use-setup-status.ts] *)

Module Probe.

(** Every field of the options object is optional. *)
Record SetupStatusOptions : Type := {
  redirectToSetupIfNeeded : option bool;
  redirectToLoginIfRegistrationClosed : option bool;
  redirectToLoginIfInitialized : option bool;
}.

Record SetupStatusState : Type := {
  isLoading : bool;
  initialized : bool;
  needsSetup : bool;
  registrationEnabled : bool;
}.

(** The default [{}] of the [options] parameter. *)
Definition empty_options : SetupStatusOptions :=
  {| redirectToSetupIfNeeded := None;
     redirectToLoginIfRegistrationClosed := None;
     redirectToLoginIfInitialized := None |}.

(** The argument of [useState]. *)
Definition initial_state : SetupStatusState :=
  {| isLoading := true;
     initialized := false;
     needsSetup := false;
     registrationEnabled := true |}.

(** [{ ...prev, isLoading: false }] *)
Definition stop_loading (prev : SetupStatusState) : SetupStatusState :=
  {| isLoading := false;
     initialized := initialized prev;
     needsSetup := needsSetup prev;
     registrationEnabled := registrationEnabled prev |}.

(** What an activation does to the world outside its closure. *)
Inductive Effect : Type :=
| SetState (next : SetupStatusState)
| Navigate (href : string).

(** Where [checkSetupStatus] is suspended. *)
Inductive Phase : Type :=
| AwaitingResponse
| AwaitingBody
| Settled.

(** One activation of the effect together with the state cell of the hook:
    [state] is what [useState] holds, [isCancelled] the flag of the
    closure, [effects] the calls of [setState] and the assignments to
    [window.location.href], oldest first. *)
Record Activation : Type := {
  state : SetupStatusState;
  isCancelled : bool;
  phase : Phase;
  effects : list Effect;
}.

(** What the event loop delivers to an activation. *)
Inductive Event : Type :=
| ResponseArrived (ok : bool)
| RequestFailed
| BodyParsed (data : JS.Value)
| BodyFailed
| Cleanup.

Definition mount : Activation :=
  {| state := initial_state;
     isCancelled := false;
     phase := AwaitingResponse;
     effects := [] |}.

Definition suspend (ph : Phase) (a : Activation) : Activation :=
  {| state := state a; isCancelled := isCancelled a;
     phase := ph; effects := effects a |}.

Definition cancel (a : Activation) : Activation :=
  {| state := state a; isCancelled := true;
     phase := phase a; effects := effects a |}.

(** [setState(update)] followed by the return of [checkSetupStatus]. *)
Definition setState (update : SetupStatusState → SetupStatusState)
    (a : Activation) : Activation :=
  let next := update (state a) in
  {| state := next; isCancelled := isCancelled a;
     phase := Settled; effects := effects a ++ [SetState next] |}.

(** [window.location.href = href; return] *)
Definition navigate (href : string) (a : Activation) : Activation :=
  {| state := state a; isCancelled := isCancelled a;
     phase := Settled; effects := effects a ++ [Navigate href] |}.

(** [if (!isCancelled) { setState(update) }] and return. *)
Definition unless_cancelled (update : SetupStatusState → SetupStatusState)
    (a : Activation) : Activation :=
  if negb (isCancelled a) then setState update a else suspend Settled a.

(** The three [Boolean(data.…)] lines; [None] when a property read
    throws.  The triple is (needsSetup, initialized, registrationEnabled). *)
Definition read_flags (data : JS.Value) : option (bool * bool * bool) :=
  needs_setup ← JS.get data "needs_setup";
  let needsSetup := JS.Boolean needs_setup in
  initialized ← JS.get data "initialized";
  let initialized := JS.Boolean initialized in
  registration_enabled ← JS.get data "registration_enabled";
  let registrationEnabled := JS.Boolean registration_enabled in
  Some (needsSetup, initialized, registrationEnabled).

(** The body of [checkSetupStatus] from the resolution of
    [response.json()] on. *)
Definition with_data (options : SetupStatusOptions) (data : JS.Value)
    (a : Activation) : Activation :=
  let redirectToSetupIfNeeded :=
    default false (redirectToSetupIfNeeded options) in
  let redirectToLoginIfRegistrationClosed :=
    default false (redirectToLoginIfRegistrationClosed options) in
  let redirectToLoginIfInitialized :=
    default false (redirectToLoginIfInitialized options) in
  match read_flags data with
  | None => unless_cancelled stop_loading a
  | Some (needsSetup, initialized, registrationEnabled) =>
      if redirectToSetupIfNeeded && needsSetup then navigate "/setup" a
      else if redirectToLoginIfRegistrationClosed && negb needsSetup
              && negb registrationEnabled then navigate "/login" a
      else if redirectToLoginIfInitialized && initialized
              && negb needsSetup then navigate "/login" a
      else
        unless_cancelled
          (λ _, {| isLoading := false;
                   initialized := initialized;
                   needsSetup := needsSetup;
                   registrationEnabled := registrationEnabled |}) a
  end.

(** One turn of the event loop.  An event that does not answer the
    pending [await] finds nothing to resume. *)
Definition step (options : SetupStatusOptions) (a : Activation)
    (ev : Event) : Activation :=
  match ev, phase a with
  | Cleanup, _ => cancel a
  | ResponseArrived ok, AwaitingResponse =>
      if negb ok then unless_cancelled stop_loading a
      else suspend AwaitingBody a
  | RequestFailed, AwaitingResponse => unless_cancelled stop_loading a
  | BodyParsed data, AwaitingBody => with_data options data a
  | BodyFailed, AwaitingBody => unless_cancelled stop_loading a
  | _, _ => a
  end.

(** The activation after the events of [history], oldest first.  A
    missing [options] argument is [{}]. *)
Definition run (options : option SetupStatusOptions)
    (history : list Event) : Activation :=
  fold_left (step (default empty_options options)) history mount.

(** The status the hook returns on a render after [history]. *)
Definition useSetupStatus (options : option SetupStatusOptions)
    (history : list Event) : SetupStatusState :=
  state (run options history).

Definition navigations (es : list Effect) : list string :=
  omap (λ e, match e with Navigate href => Some href | SetState _ => None end) es.

Definition publications (es : list Effect) : list SetupStatusState :=
  omap (λ e, match e with SetState s => Some s | Navigate _ => None end) es.

(** Two activations agree on where they are suspended and on the
    navigations issued so far. *)
Definition same_route (a b : Activation) : Prop :=
  phase a = phase b
  ∧ navigations (effects a) = navigations (effects b).

(** The ways one request can end. *)
Inductive Outcome : Type :=
| Rejected
| HttpError
| Malformed
| Body (data : JS.Value).

Definition events (o : Outcome) : list Event :=
  match o with
  | Rejected => [RequestFailed]
  | HttpError => [ResponseArrived false]
  | Malformed => [ResponseArrived true; BodyFailed]
  | Body data => [ResponseArrived true; BodyParsed data]
  end.

(** The request ended in a non-2xx response or in an exception. *)
Definition failed (o : Outcome) : bool :=
  match o with
  | Rejected | HttpError | Malformed => true
  | Body data => bool_decide (read_flags data = None)
  end.

End Probe.

(** ** The redirect policy as the specification words it *)

Module Policy.
Import Probe.

(** A rule is a condition paired with the path it redirects to. *)
Definition Rule : Type := bool * string.

(** The three rules, in the order the specification lists them, for the
    flags of a page and the three parsed fields. *)
Definition rules (options : SetupStatusOptions)
    (needsSetup initialized registrationEnabled : bool) : list Rule :=
  [ (default false (redirectToSetupIfNeeded options) && needsSetup,
     "/setup");
    (default false (redirectToLoginIfRegistrationClosed options)
       && negb needsSetup && negb registrationEnabled,
     "/login");
    (default false (redirectToLoginIfInitialized options)
       && initialized && negb needsSetup,
     "/login") ].

(** First match wins: the target of the earliest rule whose condition
    holds. *)
Definition first_match (rs : list Rule) : option string :=
  snd <$> List.find fst rs.

(** Rule 4: the resolved status. *)
Definition resolved (needsSetup initialized registrationEnabled : bool)
    : SetupStatusState :=
  {| isLoading := false;
     initialized := initialized;
     needsSetup := needsSetup;
     registrationEnabled := registrationEnabled |}.

(** What a live activation is to do with a parsed response. *)
Definition decide_effect (options : SetupStatusOptions)
    (needsSetup initialized registrationEnabled : bool) : Effect :=
  match first_match (rules options needsSetup initialized registrationEnabled) with
  | Some path => Navigate path
  | None => SetState (resolved needsSetup initialized registrationEnabled)
  end.

End Policy.

(** ** The pages and bodies of the scenarios *)

Module Scenario.
Import Probe.

(** The flags the Register page is specified with. *)
Definition register_page : SetupStatusOptions :=
  {| redirectToSetupIfNeeded := Some true;
     redirectToLoginIfRegistrationClosed := Some true;
     redirectToLoginIfInitialized := Some false |}.

Definition only_registration_closed : SetupStatusOptions :=
  {| redirectToSetupIfNeeded := None;
     redirectToLoginIfRegistrationClosed := Some true;
     redirectToLoginIfInitialized := None |}.

Definition only_setup : SetupStatusOptions :=
  {| redirectToSetupIfNeeded := Some true;
     redirectToLoginIfRegistrationClosed := None;
     redirectToLoginIfInitialized := None |}.

(** The Login page configuration: every flag false, given or defaulted. *)
Definition no_redirects (options : option SetupStatusOptions) : bool :=
  let options := default empty_options options in
  negb (default false (redirectToSetupIfNeeded options))
  && negb (default false (redirectToLoginIfRegistrationClosed options))
  && negb (default false (redirectToLoginIfInitialized options)).

(** A response body with the three fields as booleans. *)
Definition body (needs_setup initialized registration_enabled : bool)
    : JS.Value :=
  JS.Object
    (<["needs_setup" := JS.Bool needs_setup]>
       (<["initialized" := JS.Bool initialized]>
          (<["registration_enabled" := JS.Bool registration_enabled]> ∅))).

(** The double 1 and the double 0. *)
Definition one : spec_float := S754_finite false 4503599627370496 (-52).
Definition zero : spec_float := S754_zero false.

(** A body whose fields are not booleans: the string "false", the number
    1 and the number 0. *)
Definition untyped_body : JS.Value :=
  JS.Object
    (<["needs_setup" := JS.String "false"]>
       (<["initialized" := JS.Number one]>
          (<["registration_enabled" := JS.Number zero]> ∅))).

End Scenario.

(** ** The pages that use the probe: [frontend/src/components/pages] *)

Module Form.

(** The text of an input box: a JavaScript string as its UTF-16 code
    units, so that [length] is [.length] and equality is [===]. *)
Definition Text : Type := list N.

(** What a submit handler does outside the state of its page. *)
Inductive Effect : Type :=
| PreventDefault
| Post (endpoint : string) (username password : Text)
| SetTimeout (href : string) (ms : N)
| Navigate (href : string)
| ConsoleError.

(** How the request of a handler ends: [apiRequest] rejects, or there is
    a response with its [ok] whose [json()] rejects or resolves. *)
Inductive Reply : Type :=
| NoResponse
| NoJson (ok : bool)
| Json (ok : bool) (data : JS.Value).

(** The request a handler has issued, if any. *)
Definition posted (log : list Effect) : list (string * Text * Text) :=
  omap (λ e, match e with
             | Post endpoint username password =>
                 Some (endpoint, username, password)
             | _ => None
             end) log.

Definition navigations (log : list Effect) : list string :=
  omap (λ e, match e with Navigate href => Some href | _ => None end) log.

Definition timers (log : list Effect) : list (string * N) :=
  omap (λ e, match e with SetTimeout href ms => Some (href, ms) | _ => None end)
    log.

(** The reply is a response with [ok] whose body has a truthy [success]:
    the test [response.ok && data.success] passes. *)
Definition accepted (reply : Reply) : bool :=
  match reply with
  | Json true data =>
      match JS.get data "success" with
      | Some ok => JS.Boolean ok
      | None => false
      end
  | Json false _ | NoJson _ | NoResponse => false
  end.

(** [message || fallback] *)
Definition or_else (message : JS.Value) (fallback : string) : JS.Value :=
  if JS.Boolean message then message else JS.String fallback.

End Form.

Module Register.
Import Form.

Record FormData : Type := {
  username : Text;
  password : Text;
  confirmPassword : Text;
}.

(** The state cells of [RegisterPage] that its handlers touch.  [error]
    is typed as a string but receives [data.message] as it comes. *)
Record Page : Type := {
  isLoading : bool;
  error : JS.Value;
  success : string;
  formData : FormData;
}.

(** The arguments of the [useState] calls. *)
Definition initial : Page :=
  {| isLoading := false;
     error := JS.String "";
     success := "";
     formData := {| username := []; password := []; confirmPassword := [] |} |}.

(** The options the page passes to the probe. *)
Definition options : Probe.SetupStatusOptions :=
  {| Probe.redirectToSetupIfNeeded := Some true;
     Probe.redirectToLoginIfRegistrationClosed := Some true;
     Probe.redirectToLoginIfInitialized := None |}.

Definition setIsLoading (b : bool) (s : Page) : Page :=
  {| isLoading := b; error := error s; success := success s;
     formData := formData s |}.

Definition setError (e : JS.Value) (s : Page) : Page :=
  {| isLoading := isLoading s; error := e; success := success s;
     formData := formData s |}.

Definition setSuccess (m : string) (s : Page) : Page :=
  {| isLoading := isLoading s; error := error s; success := m;
     formData := formData s |}.

Definition setFormData (update : FormData → FormData) (s : Page) : Page :=
  {| isLoading := isLoading s; error := error s; success := success s;
     formData := update (formData s) |}.

(** [handleSubmit] up to its first [await] or its early return: the state
    after the batch of updates and the effects, oldest first.  [t] is the
    translation function of the i18n context. *)
Definition handleSubmit (t : string → string) (s : Page)
    : Page * list Effect :=
  let formData := formData s in
  let s := setError (JS.String "") s in
  let s := setSuccess "" s in
  if bool_decide (password formData ≠ confirmPassword formData) then
    (setError (JS.String (t "register.alerts.password_mismatch")) s,
     [PreventDefault])
  else if (length (password formData) <? 6)%nat then
    (setError (JS.String (t "register.alerts.password_too_short")) s,
     [PreventDefault])
  else
    (setIsLoading true s,
     [PreventDefault;
      Post "/api/auth/register" (username formData) (password formData)]).

(** The [catch] block. *)
Definition caught (t : string → string) (s : Page) : Page * list Effect :=
  (setError (JS.String (t "register.alerts.failed_retry")) s, [ConsoleError]).

(** The [else] branch of the test on the response. *)
Definition rejected (t : string → string) (data : JS.Value) (s : Page)
    : Page * list Effect :=
  match JS.get data "message" with
  | None => caught t s
  | Some message =>
      (setError (or_else message (t "register.alerts.failed")) s, [])
  end.

(** The [try] block from the first [await] on, with its [catch]. *)
Definition answered (t : string → string) (reply : Reply) (s : Page)
    : Page * list Effect :=
  match reply with
  | NoResponse | NoJson _ => caught t s
  | Json false data => rejected t data s
  | Json true data =>
      match JS.get data "success" with
      | None => caught t s
      | Some ok =>
          if JS.Boolean ok then
            (setSuccess (t "register.alerts.success") s,
             [SetTimeout "/login" 2000])
          else rejected t data s
      end
  end.

(** [handleSubmit] from the first [await] to its end: [try], [catch] and
    [finally]. *)
Definition resume (t : string → string) (reply : Reply) (s : Page)
    : Page * list Effect :=
  let '(s, log) := answered t reply s in
  (setIsLoading false s, log).

(** The inputs [handleInputChange] is attached to, by their [name]. *)
Inductive Field : Type := Username | Password | ConfirmPassword.

(** [{ ...prev, [e.target.name]: e.target.value }] *)
Definition assign (field : Field) (value : Text) (prev : FormData) : FormData :=
  match field with
  | Username =>
      {| username := value; password := password prev;
         confirmPassword := confirmPassword prev |}
  | Password =>
      {| username := username prev; password := value;
         confirmPassword := confirmPassword prev |}
  | ConfirmPassword =>
      {| username := username prev; password := password prev;
         confirmPassword := value |}
  end.

(** [formData[name]] *)
Definition read (field : Field) (data : FormData) : Text :=
  match field with
  | Username => username data
  | Password => password data
  | ConfirmPassword => confirmPassword data
  end.

Definition handleInputChange (field : Field) (value : Text) (s : Page) : Page :=
  let error := error s in
  let success := success s in
  let s := setFormData (assign field value) s in
  let s := if JS.Boolean error then setError (JS.String "") s else s in
  if negb (success =? "")%string then setSuccess "" s else s.

(** What the component returns: null while the probe is loading, else the
    form with its alerts and the [disabled] of its submit button.  What
    React makes of it is [Render.register]. *)
Record View : Type := {
  errorAlert : option JS.Value;
  successAlert : option string;
  submitDisabled : bool;
}.

Definition is_empty (x : Text) : bool :=
  match x with [] => true | _ :: _ => false end.

Definition RegisterPage (status : Probe.SetupStatusState) (s : Page)
    : option View :=
  let isStatusLoading := Probe.isLoading status in
  if isStatusLoading then None
  else
    Some
      {| errorAlert := if JS.Boolean (error s) then Some (error s) else None;
         successAlert :=
           if negb (success s =? "")%string then Some (success s) else None;
         submitDisabled :=
           is_empty (username (formData s))
           || is_empty (password (formData s))
           || is_empty (confirmPassword (formData s))
           || isLoading s |}.

End Register.

Module Setup.
Import Form.

(** The state cells of [SetupPage]. *)
Record Page : Type := {
  username : Text;
  password : Text;
  confirmPassword : Text;
  error : JS.Value;
  isLoading : bool;
}.

Definition initial : Page :=
  {| username := []; password := []; confirmPassword := [];
     error := JS.String ""; isLoading := false |}.

(** The options the page passes to the probe. *)
Definition options : Probe.SetupStatusOptions :=
  {| Probe.redirectToSetupIfNeeded := None;
     Probe.redirectToLoginIfRegistrationClosed := None;
     Probe.redirectToLoginIfInitialized := Some true |}.

Definition setError (e : JS.Value) (s : Page) : Page :=
  {| username := username s; password := password s;
     confirmPassword := confirmPassword s; error := e;
     isLoading := isLoading s |}.

Definition setIsLoading (b : bool) (s : Page) : Page :=
  {| username := username s; password := password s;
     confirmPassword := confirmPassword s; error := error s;
     isLoading := b |}.

(** [onSubmit] up to its first [await] or its early return. *)
Definition onSubmit (t : string → string) (s : Page) : Page * list Effect :=
  let username := username s in
  let password := password s in
  let confirmPassword := confirmPassword s in
  let s := setError (JS.String "") s in
  if Register.is_empty username || Register.is_empty password then
    (setError (JS.String (t "setup.errors.required")) s, [PreventDefault])
  else if (length password <? 6)%nat then
    (setError (JS.String (t "setup.errors.passwordTooShort")) s,
     [PreventDefault])
  else if bool_decide (password ≠ confirmPassword) then
    (setError (JS.String (t "setup.errors.passwordMismatch")) s,
     [PreventDefault])
  else
    (setIsLoading true s,
     [PreventDefault; Post "/api/auth/setup-admin" username password]).

(** The [catch] block. *)
Definition caught (t : string → string) (s : Page) : Page * list Effect :=
  (setError (JS.String (t "setup.errors.failed")) s, []).

(** The [setError] after the test on the response. *)
Definition rejected (t : string → string) (data : JS.Value) (s : Page)
    : Page * list Effect :=
  match JS.get data "message" with
  | None => caught t s
  | Some message => (setError (or_else message (t "setup.errors.failed")) s, [])
  end.

(** The [try] block from the first [await] on, with its [catch]. *)
Definition answered (t : string → string) (reply : Reply) (s : Page)
    : Page * list Effect :=
  match reply with
  | NoResponse | NoJson _ => caught t s
  | Json false data => rejected t data s
  | Json true data =>
      match JS.get data "success" with
      | None => caught t s
      | Some ok =>
          if JS.Boolean ok then (s, [Navigate "/login"])
          else rejected t data s
      end
  end.

(** [onSubmit] from the first [await] to its end; [finally] runs on the
    early [return] as well. *)
Definition resume (t : string → string) (reply : Reply) (s : Page)
    : Page * list Effect :=
  let '(s, log) := answered t reply s in
  (setIsLoading false s, log).

(** What the component returns: null while the probe is loading, else the
    form.  What React makes of it is [Render.setup]. *)
Record View : Type := {
  errorAlert : option JS.Value;
  submitDisabled : bool;
}.

Definition SetupPage (status : Probe.SetupStatusState) (s : Page)
    : option View :=
  let isChecking := Probe.isLoading status in
  if isChecking then None
  else
    Some {| errorAlert := if JS.Boolean (error s) then Some (error s) else None;
            submitDisabled := isLoading s |}.

End Setup.

(** ** What React makes of the element a page returns *)

Module Render.

(** Whether React takes a value as a child: a string or a number becomes
    text, a boolean, null or undefined nothing, an array its items; on a
    plain object the render throws. *)
Fixpoint valid_child (v : JS.Value) : bool :=
  match v with
  | JS.Object _ => false
  | JS.Array items => forallb valid_child items
  | JS.Undefined | JS.Null | JS.Bool _ | JS.Number _ | JS.String _ => true
  end.

Inductive Outcome (View : Type) : Type :=
| Nothing
| Thrown
| Shown (view : View).

Arguments Nothing {View}.
Arguments Thrown {View}.
Arguments Shown {View} view.

(** The render of an element whose one child of unchecked type is
    [error]: both pages put [{error}] into the tree, inside the alert when
    it is truthy, and the Register page as the value of [error && …] when
    it is falsy. *)
Definition commit {View : Type} (error : JS.Value) (element : option View)
    : Outcome View :=
  match element with
  | None => Nothing
  | Some view => if valid_child error then Shown view else Thrown
  end.

Definition register (status : Probe.SetupStatusState) (s : Register.Page)
    : Outcome Register.View :=
  commit (Register.error s) (Register.RegisterPage status s).

Definition setup (status : Probe.SetupStatusState) (s : Setup.Page)
    : Outcome Setup.View :=
  commit (Setup.error s) (Setup.SetupPage status s).

End Render.

(** ** Pages and replies of the examples *)

Module Example.
Import Form.

(** A translation function that answers every key with the key itself
    behind a mark. *)
Definition keys (key : string) : string := String.append "#" key.

(** A Register page with the form filled in: "a" and twice "secret". *)
Definition filled : Register.Page :=
  {| Register.isLoading := false;
     Register.error := JS.String "";
     Register.success := "";
     Register.formData :=
       {| Register.username := [97%N];
          Register.password := [115; 101; 99; 114; 101; 116]%N;
          Register.confirmPassword := [115; 101; 99; 114; 101; 116]%N |} |}.

(** A body that refuses with a message. *)
Definition taken : JS.Value :=
  JS.Object
    (<["success" := JS.Bool false]>
       (<["message" := JS.String "Username already exists"]> ∅)).

(** A body that accepts. *)
Definition welcome : JS.Value :=
  JS.Object (<["success" := JS.Bool true]> ∅).

(** A body that refuses with a message that is not text. *)
Definition structured : JS.Value :=
  JS.Object
    (<["message" := JS.Object (<["code" := JS.String "E1"]> ∅)]> ∅).

(** The status the probe publishes when the request fails. *)
Definition loaded : Probe.SetupStatusState :=
  Probe.stop_loading Probe.initial_state.

End Example.

(** * Properties *)

(** ** Route classification *)

Lemma includes_spec (xs : list string) (x : string) :
  includes xs x = true ↔ x ∈ xs.
Proof.
  unfold includes. rewrite existsb_exists. split.
  - intros (y & Hin & Heq). apply String.eqb_eq in Heq. subst y.
    by apply list_elem_of_In.
  - intros Hin. exists x. split; [by apply list_elem_of_In | apply String.eqb_refl].
Qed.

(** C4. For every string, [isAuthPublicPath] answers true exactly when the
    string is "/login", "/register" or "/setup"; every other string, and
    the null path, classifies as protected. *)
Theorem isAuthPublicPath_exact :
  (∀ path : string,
     isAuthPublicPath (Some path) = true
     ↔ path = "/login" ∨ path = "/register" ∨ path = "/setup")
  ∧ isAuthPublicPath None = false.
Proof.
  split; [|reflexivity].
  intros path. unfold isAuthPublicPath.
  destruct (String.eqb_spec path "") as [->|Hne].
  - split; [discriminate|]. intros [H|[H|H]]; discriminate H.
  - rewrite includes_spec. unfold AUTH_PUBLIC_PATHS.
    rewrite !elem_of_cons, elem_of_nil. tauto.
Qed.

(** ** Route gate *)

(** C7. The gate returns the page body alone, inside a fragment that commits
    nothing of its own, exactly when the path is a public auth path; for
    every other path it returns the application context, given the session
    token, around the shell of navigation panel and content region that
    holds the body.  The context is given [token || undefined]: the token
    itself, or [undefined] when there is none (null, or the empty
    string). *)
Theorem LayoutContent_gate (pathname token : option string)
    (children : Layout.ReactNode) :
  Layout.LayoutContent pathname token children
  = (if isAuthPublicPath pathname
     then Layout.Fragment [children]
     else Layout.AppProvider (Layout.or_undefined token)
            [Layout.Host "div" "flex h-screen bg-background relative"
               [Layout.Sidebar;
                Layout.Host "main"
                  "flex-1 flex flex-col overflow-hidden bg-background"
                  [children]]])
  ∧ (isAuthPublicPath pathname = true
     ↔ Layout.commit (Layout.LayoutContent pathname token children)
       = Layout.commit children)
  ∧ (isAuthPublicPath pathname = false
     ↔ Layout.shell_around (Layout.or_undefined token) children
         (Layout.LayoutContent pathname token children))
  ∧ (∀ t : string, t ≠ "" → Layout.or_undefined (Some t) = Some t)
  ∧ Layout.or_undefined None = None
  ∧ Layout.or_undefined (Some "") = None.
Proof.
  unfold Layout.LayoutContent.
  destruct (isAuthPublicPath pathname) eqn:Hpub; repeat split;
    try done; simpl.
  - by rewrite app_nil_r.
  - intros (outer & content & Heq). discriminate Heq.
  - intros t Hne. apply String.eqb_neq in Hne. by rewrite Hne.
  - intros Heq. apply (f_equal Layout.total) in Heq.
    rewrite app_nil_r in Heq. unfold Layout.total in Heq. simpl in Heq. lia.
  - intros _. by eexists _, _.
  - intros t Hne. apply String.eqb_neq in Hne. by rewrite Hne.
Qed.

Lemma LayoutContent_gate_witness :
  Layout.LayoutContent (Some "/chat") (Some "session") (Layout.Text "page")
  = Layout.AppProvider (Some "session")
      [Layout.Host "div" "flex h-screen bg-background relative"
         [Layout.Sidebar;
          Layout.Host "main"
            "flex-1 flex flex-col overflow-hidden bg-background"
            [Layout.Text "page"]]].
Proof.
  exact (proj1 (LayoutContent_gate (Some "/chat") (Some "session")
                  (Layout.Text "page"))).
Defined.

(** ** Setup-status probe: how one activation unfolds *)

Section Unfolding.
Import Probe.
Variable options : SetupStatusOptions.

Lemma navigations_snoc_navigate es href :
  navigations (es ++ [Navigate href]) = navigations es ++ [href].
Proof. unfold navigations. by rewrite omap_app. Qed.

Lemma navigations_snoc_setState es s :
  navigations (es ++ [SetState s]) = navigations es.
Proof. unfold navigations. rewrite omap_app. simpl. by rewrite app_nil_r. Qed.

Lemma publications_snoc_navigate es href :
  publications (es ++ [Navigate href]) = publications es.
Proof. unfold publications. rewrite omap_app. simpl. by rewrite app_nil_r. Qed.

Lemma publications_snoc_setState es s :
  publications (es ++ [SetState s]) = publications es ++ [s].
Proof. unfold publications. by rewrite omap_app. Qed.

(** A parsed body is handled by the first matching rule of the policy;
    only the publication of rule 4 looks at the flag. *)
Lemma with_data_first_match data a needsSetup initialized registrationEnabled :
  read_flags data = Some (needsSetup, initialized, registrationEnabled) →
  with_data options data a
  = match Policy.first_match
            (Policy.rules options needsSetup initialized registrationEnabled)
    with
    | Some path => navigate path a
    | None =>
        unless_cancelled
          (λ _, Policy.resolved needsSetup initialized registrationEnabled) a
    end.
Proof.
  intros Hflags. unfold with_data. rewrite Hflags.
  unfold Policy.first_match, Policy.rules, Policy.resolved.
  destruct (default false (redirectToSetupIfNeeded options)),
    (default false (redirectToLoginIfRegistrationClosed options)),
    (default false (redirectToLoginIfInitialized options)),
    needsSetup, initialized, registrationEnabled; reflexivity.
Qed.

Lemma with_data_throws data a :
  read_flags data = None →
  with_data options data a = unless_cancelled stop_loading a.
Proof. intros Hflags. unfold with_data. by rewrite Hflags. Qed.

(** Every step either leaves the activation suspended, or settles it
    through one of three exits. *)
Lemma step_cases a ev :
  step options a ev = a
  ∨ step options a ev = cancel a
  ∨ step options a ev = suspend AwaitingBody a ∧ phase a = AwaitingResponse
  ∨ phase a ≠ Settled
    ∧ ((∃ update, step options a ev = unless_cancelled update a)
       ∨ (∃ href, step options a ev = navigate href a)).
Proof.
  unfold step.
  destruct ev as [ok| |data| |], (phase a) eqn:Hphase; auto;
    right; right.
  - destruct ok; simpl; [by left|].
    right. split; [done|]. left. by eexists.
  - right. split; [done|]. left. by eexists.
  - right. split; [done|].
    destruct (read_flags data) as [[[ns i] r]|] eqn:Hflags.
    + rewrite (with_data_first_match _ _ _ _ _ Hflags).
      destruct (Policy.first_match _); [right | left]; by eexists.
    + rewrite (with_data_throws _ _ Hflags). left. by eexists.
  - right. split; [done|]. left. by eexists.
Qed.

Ltac step_exits a ev :=
  destruct (step_cases a ev)
    as [-> | [-> | [[-> ?] | [? [[? ->] | [? ->]]]]]].

(** Once [checkSetupStatus] has returned, nothing resumes it. *)
Lemma settled_step a ev :
  phase a = Settled → phase (step options a ev) = Settled.
Proof. intros Hphase. step_exits a ev; simpl; congruence. Qed.

Lemma settled_forever history : ∀ a,
  phase a = Settled → phase (fold_left (step options) history a) = Settled.
Proof.
  induction history as [|ev history IH]; intros a Hphase; [done|].
  simpl. by apply IH, settled_step.
Qed.

(** While it is suspended, it has done nothing yet. *)
Lemma suspended_step a ev :
  phase (step options a ev) ≠ Settled →
  state (step options a ev) = state a
  ∧ effects (step options a ev) = effects a.
Proof.
  step_exits a ev; try done.
  unfold unless_cancelled. by destruct (negb (isCancelled a)).
Qed.

Lemma suspended_untouched history : ∀ a,
  phase (fold_left (step options) history a) ≠ Settled →
  state (fold_left (step options) history a) = state a
  ∧ effects (fold_left (step options) history a) = effects a.
Proof.
  induction history as [|ev history IH]; intros a Hphase; [done|].
  simpl in *. destruct (IH _ Hphase) as [-> ->].
  apply suspended_step. intros Hsettled.
  by apply Hphase, settled_forever.
Qed.

(** A cancelled activation never calls [setState]. *)
Lemma cancelled_step a ev :
  isCancelled a = true →
  isCancelled (step options a ev) = true
  ∧ state (step options a ev) = state a
  ∧ publications (effects (step options a ev)) = publications (effects a).
Proof.
  intros Hflag. step_exits a ev; try done.
  - unfold unless_cancelled. by rewrite Hflag.
  - simpl. by rewrite publications_snoc_navigate.
Qed.

Lemma cancelled_frozen history : ∀ a,
  isCancelled a = true →
  state (fold_left (step options) history a) = state a
  ∧ publications (effects (fold_left (step options) history a))
    = publications (effects a).
Proof.
  induction history as [|ev history IH]; intros a Hflag; [done|].
  simpl. destruct (cancelled_step a ev Hflag) as (Hflag' & <- & <-).
  by apply IH.
Qed.

(** Activations on the same route stay on it, whatever their flags. *)
Lemma same_route_unless_cancelled update update' a b :
  navigations (effects a) = navigations (effects b) →
  same_route (unless_cancelled update a) (unless_cancelled update' b).
Proof.
  intros Hnav. unfold unless_cancelled, same_route.
  destruct (negb (isCancelled a)), (negb (isCancelled b)); simpl;
    by rewrite ?navigations_snoc_setState.
Qed.

Lemma same_route_step a b ev :
  same_route a b → same_route (step options a ev) (step options b ev).
Proof.
  intros Hab. pose proof Hab as [Hphase Hnav].
  unfold step. rewrite <- Hphase.
  destruct ev as [ok| |data| |]; [..|by split];
    destruct (phase a) eqn:Ha;
    try assumption; try (by apply same_route_unless_cancelled).
  - destruct (negb ok); [by apply same_route_unless_cancelled|].
    split; [done|]. by simpl.
  - destruct (read_flags data) as [[[ns i] r]|] eqn:Hflags.
    + rewrite !(with_data_first_match _ _ _ _ _ Hflags).
      destruct (Policy.first_match _).
      * split; [done|]. simpl. by rewrite !navigations_snoc_navigate, Hnav.
      * by apply same_route_unless_cancelled.
    + rewrite !(with_data_throws _ _ Hflags).
      by apply same_route_unless_cancelled.
Qed.

Lemma same_route_steps history : ∀ a b,
  same_route a b →
  same_route (fold_left (step options) history a)
             (fold_left (step options) history b).
Proof.
  induction history as [|ev history IH]; intros a b Hab; [done|].
  simpl. by apply IH, same_route_step.
Qed.

(** A policy without redirects never navigates. *)
Lemma no_redirect_step a ev :
  default false (redirectToSetupIfNeeded options) = false →
  default false (redirectToLoginIfRegistrationClosed options) = false →
  default false (redirectToLoginIfInitialized options) = false →
  navigations (effects (step options a ev)) = navigations (effects a).
Proof.
  intros H1 H2 H3.
  assert (Hdata : ∀ data, navigations (effects (with_data options data a))
                          = navigations (effects a)).
  { intros data. destruct (read_flags data) as [[[ns i] r]|] eqn:Hflags.
    - rewrite (with_data_first_match _ _ _ _ _ Hflags).
      unfold Policy.first_match, Policy.rules. rewrite H1, H2, H3. simpl.
      unfold unless_cancelled. destruct (negb (isCancelled a)); simpl;
        by rewrite ?navigations_snoc_setState.
    - rewrite (with_data_throws _ _ Hflags).
      unfold unless_cancelled. destruct (negb (isCancelled a)); simpl;
        by rewrite ?navigations_snoc_setState. }
  unfold step. destruct ev as [ok| |data| |], (phase a); try done;
    try (unfold unless_cancelled; destruct (negb (isCancelled a)); simpl;
         by rewrite ?navigations_snoc_setState).
  destruct (negb ok); [|done].
  unfold unless_cancelled; destruct (negb (isCancelled a)); simpl;
    by rewrite ?navigations_snoc_setState.
Qed.

Lemma no_redirect_steps history : ∀ a,
  default false (redirectToSetupIfNeeded options) = false →
  default false (redirectToLoginIfRegistrationClosed options) = false →
  default false (redirectToLoginIfInitialized options) = false →
  navigations (effects (fold_left (step options) history a))
  = navigations (effects a).
Proof.
  induction history as [|ev history IH]; intros a H1 H2 H3; [done|].
  simpl. rewrite IH by done. by apply no_redirect_step.
Qed.

End Unfolding.

(** ** Setup-status probe: the stated properties *)

Section Statements.
Import Probe.

(** A request that has ended leaves the activation settled. *)
Lemma run_events_settled options o : phase (run options (events o)) = Settled.
Proof.
  unfold run. set (opts := default empty_options options).
  destruct o as [| | |data]; try done. simpl.
  destruct (read_flags data) as [[[ns i] r]|] eqn:Hflags.
  - rewrite (with_data_first_match _ _ _ _ _ _ Hflags).
    by destruct (Policy.first_match _).
  - by rewrite (with_data_throws _ _ _ Hflags).
Qed.

(** A live activation answers a parsed body with exactly the effect the
    policy decides, and holds the published status if there is one. *)
Lemma run_parsed options data needsSetup initialized registrationEnabled :
  read_flags data = Some (needsSetup, initialized, registrationEnabled) →
  let decision :=
    Policy.decide_effect (default empty_options options)
      needsSetup initialized registrationEnabled in
  effects (run options (events (Body data))) = [decision]
  ∧ state (run options (events (Body data)))
    = match decision with
      | SetState next => next
      | Navigate _ => initial_state
      end.
Proof.
  intros Hflags. unfold run, Policy.decide_effect. simpl.
  rewrite (with_data_first_match _ _ _ _ _ _ Hflags).
  by destruct (Policy.first_match _).
Qed.

(** A live activation answers a failed request by clearing the loading
    flag and nothing else. *)
Lemma run_failed options o :
  failed o = true →
  effects (run options (events o)) = [SetState (stop_loading initial_state)]
  ∧ state (run options (events o)) = stop_loading initial_state.
Proof.
  destruct o as [| | |data]; try done. simpl.
  intros Hthrows%bool_decide_eq_true. unfold run. simpl.
  by rewrite (with_data_throws _ _ _ Hthrows).
Qed.

(** C8. Whatever the policy, the status the hook returns at mount is
    loading, not initialized, no setup needed, registration enabled, and
    it is still that status on every render before the request has
    ended. *)
Theorem initial_status (options : option SetupStatusOptions) :
  useSetupStatus options []
  = {| isLoading := true;
       initialized := false;
       needsSetup := false;
       registrationEnabled := true |}
  ∧ ∀ history,
      phase (run options history) ≠ Settled →
      useSetupStatus options history = useSetupStatus options [].
Proof.
  split; [reflexivity|]. intros history Hpending.
  unfold useSetupStatus, run in *.
  by destruct (suspended_untouched _ _ _ Hpending) as [-> _].
Qed.

Lemma initial_status_witness :
  phase (run (Some Scenario.register_page) [Cleanup; ResponseArrived true])
  ≠ Settled
  ∧ useSetupStatus (Some Scenario.register_page) [Cleanup; ResponseArrived true]
    = useSetupStatus (Some Scenario.register_page) [].
Proof.
  split; [discriminate|].
  apply (proj2 (initial_status (Some Scenario.register_page))).
  discriminate.
Defined.

(** C1, as stated, fails: an activation of the page that redirects to
    setup, cancelled before the response arrives, still assigns "/setup"
    to the location when the body reports that setup is needed. *)
Lemma cancelled_activation_navigates :
  let a := run (Some Scenario.only_setup)
             (Cleanup :: events (Body (Scenario.body true false true))) in
  isCancelled a = true ∧ effects a = [Navigate "/setup"].
Proof. by vm_compute. Qed.

(** C1, amended. For every policy and every history, once the activation
    is cancelled the state cell keeps the value it had and no further
    [setState] is issued, whatever arrives afterwards; the navigations,
    however, are those of the same history without the cancellation. *)
Theorem cancellation_guards_state_only (options : option SetupStatusOptions)
    (before after : list Event) :
  let cancelled := run options (before ++ Cleanup :: after) in
  state cancelled = state (run options before)
  ∧ publications (effects cancelled)
    = publications (effects (run options before))
  ∧ navigations (effects cancelled)
    = navigations (effects (run options (before ++ after))).
Proof.
  unfold run. rewrite !fold_left_app. simpl.
  set (opts := default empty_options options).
  set (a := fold_left (step opts) before mount).
  destruct (cancelled_frozen opts after (cancel a) eq_refl) as [-> ->].
  repeat split.
  by destruct (same_route_steps opts after (cancel a) a) as [_ ->].
Qed.

(** C2. A parsed response is answered by the first rule, in the fixed
    order, whose condition holds, and by nothing after it: the effects of
    the activation are the one navigation of that rule, or the one
    publication when no rule matches.  In particular the Register page,
    told that setup is needed, not initialized, registration enabled,
    navigates to "/setup" only and publishes no status. *)
Theorem redirect_precedence :
  (∀ options data needsSetup initialized registrationEnabled,
     read_flags data = Some (needsSetup, initialized, registrationEnabled) →
     let a := run options (events (Body data)) in
     let rs := Policy.rules (default empty_options options)
                 needsSetup initialized registrationEnabled in
     navigations (effects a) = option_list (Policy.first_match rs)
     ∧ publications (effects a)
       = match Policy.first_match rs with
         | Some _ => []
         | None => [Policy.resolved needsSetup initialized registrationEnabled]
         end)
  ∧ (∀ data,
       read_flags data = Some (true, false, true) →
       let a := run (Some Scenario.register_page) (events (Body data)) in
       effects a = [Navigate "/setup"] ∧ state a = initial_state).
Proof.
  split.
  - intros options data ns i r Hflags.
    destruct (run_parsed options data ns i r Hflags) as [Heff _].
    cbv zeta in *. unfold Policy.decide_effect in Heff.
    rewrite Heff. by destruct (Policy.first_match _).
  - intros data Hflags.
    exact (run_parsed (Some Scenario.register_page) data _ _ _ Hflags).
Qed.

Lemma redirect_precedence_witness :
  read_flags (Scenario.body true false true) = Some (true, false, true)
  ∧ effects (run (Some Scenario.register_page)
               (events (Body (Scenario.body true false true))))
    = [Navigate "/setup"]
  ∧ state (run (Some Scenario.register_page)
             (events (Body (Scenario.body true false true))))
    = initial_state.
Proof.
  split; [by vm_compute|].
  apply (proj2 redirect_precedence (Scenario.body true false true)).
  by vm_compute.
Defined.

(** C3. Whatever the policy, when the request ends in a non-2xx response
    or in an exception (a rejected request, a body that is not JSON, a
    body whose fields cannot be read), a live activation clears the
    loading flag, leaves the three status fields at their defaults and
    does not navigate. *)
Theorem fail_open (options : option SetupStatusOptions) (o : Outcome) :
  failed o = true →
  let a := run options (events o) in
  isLoading (state a) = false
  ∧ initialized (state a) = initialized initial_state
  ∧ needsSetup (state a) = needsSetup initial_state
  ∧ registrationEnabled (state a) = registrationEnabled initial_state
  ∧ navigations (effects a) = []
  ∧ isCancelled a = false.
Proof.
  intros Hfailed. destruct (run_failed options o Hfailed) as [Heff Hstate].
  cbv zeta. rewrite Heff, Hstate. repeat split.
  destruct o as [| | |data]; try done. simpl in Hfailed.
  apply bool_decide_eq_true in Hfailed.
  unfold run. simpl. by rewrite (with_data_throws _ _ _ Hfailed).
Qed.

Lemma fail_open_witness :
  failed Rejected = true
  ∧ isLoading (state (run (Some Scenario.register_page) (events Rejected)))
    = false
  ∧ navigations (effects (run (Some Scenario.register_page) (events Rejected)))
    = [].
Proof.
  split; [reflexivity|].
  destruct (fail_open (Some Scenario.register_page) Rejected eq_refl)
    as (Hloading & _ & _ & _ & Hnav & _).
  by split.
Defined.

(** C5, as stated, fails: on a page that redirects when registration is
    closed, a body reporting not initialized, no setup needed and
    registration closed sends the browser to "/login", and the status
    keeps loading. *)
Lemma inconsistent_status_redirects :
  let a := run (Some Scenario.only_registration_closed)
             (events (Body (Scenario.body false false false))) in
  read_flags (Scenario.body false false false) = Some (false, false, false)
  ∧ effects a = [Navigate "/login"]
  ∧ isLoading (state a) = true.
Proof. by vm_compute. Qed.

(** C5, amended. Whatever the policy, a successful response reporting
    neither initialized nor setup needed is not an error.  Unless the
    policy redirects on closed registration and the response reports
    registration closed, a live activation publishes the parsed status
    with the loading flag cleared and does not navigate; in that one
    case it navigates to "/login" and publishes nothing. *)
Theorem inconsistent_status (options : option SetupStatusOptions)
    (data : JS.Value) (registrationEnabled : bool) :
  read_flags data = Some (false, false, registrationEnabled) →
  let a := run options (events (Body data)) in
  let closed :=
    default false
      (redirectToLoginIfRegistrationClosed (default empty_options options))
    && negb registrationEnabled in
  if closed
  then effects a = [Navigate "/login"] ∧ state a = initial_state
  else effects a = [SetState (Policy.resolved false false registrationEnabled)]
       ∧ state a = Policy.resolved false false registrationEnabled
       ∧ isLoading (state a) = false.
Proof.
  intros Hflags.
  destruct (run_parsed options data _ _ _ Hflags) as [Heff Hstate].
  cbv zeta in *. rewrite Hstate, Heff. clear Heff Hstate.
  unfold Policy.decide_effect, Policy.first_match, Policy.rules.
  destruct (default false (redirectToSetupIfNeeded _)),
    (default false (redirectToLoginIfRegistrationClosed _)),
    (default false (redirectToLoginIfInitialized _)),
    registrationEnabled; by simpl.
Qed.

Lemma inconsistent_status_witness :
  read_flags (Scenario.body false false true) = Some (false, false, true)
  ∧ effects (run (Some Scenario.register_page)
               (events (Body (Scenario.body false false true))))
    = [SetState (Policy.resolved false false true)].
Proof.
  split; [by vm_compute|].
  exact (proj1 (inconsistent_status (Some Scenario.register_page)
                  (Scenario.body false false true) true eq_refl)).
Defined.

Lemma no_redirects_flags options :
  Scenario.no_redirects options = true →
  let opts := default empty_options options in
  default false (redirectToSetupIfNeeded opts) = false
  ∧ default false (redirectToLoginIfRegistrationClosed opts) = false
  ∧ default false (redirectToLoginIfInitialized opts) = false.
Proof.
  unfold Scenario.no_redirects. cbv zeta.
  destruct (default false (redirectToSetupIfNeeded _)),
    (default false (redirectToLoginIfRegistrationClosed _)),
    (default false (redirectToLoginIfInitialized _)); by simpl.
Qed.

Lemma no_redirects_publishes options needsSetup initialized registrationEnabled :
  Scenario.no_redirects options = true →
  Policy.decide_effect (default empty_options options)
    needsSetup initialized registrationEnabled
  = SetState (Policy.resolved needsSetup initialized registrationEnabled).
Proof.
  intros (H1 & H2 & H3)%no_redirects_flags.
  unfold Policy.decide_effect, Policy.first_match, Policy.rules.
  by rewrite H1, H2, H3.
Qed.

Lemma read_flags_object (props : gmap string JS.Value) :
  read_flags (JS.Object props)
  = Some (JS.Boolean (default JS.Undefined (props !! "needs_setup")),
          JS.Boolean (default JS.Undefined (props !! "initialized")),
          JS.Boolean (default JS.Undefined (props !! "registration_enabled"))).
Proof. reflexivity. Qed.

Lemma read_flags_body needs_setup initialized registration_enabled :
  read_flags (Scenario.body needs_setup initialized registration_enabled)
  = Some (needs_setup, initialized, registration_enabled).
Proof. by destruct needs_setup, initialized, registration_enabled. Qed.

(** C6. Under the Login page configuration the probe never navigates,
    whatever arrives and in whatever order; and for every way the
    request can end, a live activation publishes exactly one status,
    with the loading flag cleared: the parsed flags when the body was
    read, the defaults when the request failed.  The parsed flags are the
    fields of the body: a body with the three fields as booleans is
    published field by field, and a field of any object is published as
    [Boolean] of its value, false when absent. *)
Theorem login_never_redirects (options : option SetupStatusOptions) :
  Scenario.no_redirects options = true →
  (∀ history, navigations (effects (run options history)) = [])
  ∧ (∀ o,
       let a := run options (events o) in
       effects a = [SetState (state a)]
       ∧ isLoading (state a) = false
       ∧ state a
         = match o with
           | Body data =>
               match read_flags data with
               | Some (needsSetup, initialized, registrationEnabled) =>
                   Policy.resolved needsSetup initialized registrationEnabled
               | None => stop_loading initial_state
               end
           | Rejected | HttpError | Malformed => stop_loading initial_state
           end)
  ∧ (∀ needs_setup initialized registration_enabled : bool,
       let a :=
         run options
           (events (Body (Scenario.body needs_setup initialized
                            registration_enabled))) in
       state a
       = {| isLoading := false;
            initialized := initialized;
            needsSetup := needs_setup;
            registrationEnabled := registration_enabled |}
       ∧ effects a = [SetState (state a)])
  ∧ (∀ props : gmap string JS.Value,
       let field key :=
         match props !! key with
         | Some v => JS.Boolean v
         | None => false
         end in
       useSetupStatus options (events (Body (JS.Object props)))
       = {| isLoading := false;
            initialized := field "initialized";
            needsSetup := field "needs_setup";
            registrationEnabled := field "registration_enabled" |}).
Proof.
  intros Hlogin. split; [|split; [|split]].
  - intros history.
    destruct (no_redirects_flags options Hlogin) as (H1 & H2 & H3).
    unfold run. by rewrite no_redirect_steps.
  - intros o. cbv zeta.
    assert (Hcases :
      failed o = true
      ∨ ∃ data ns i r, o = Body data ∧ read_flags data = Some (ns, i, r)).
    { destruct o as [| | |data]; auto. simpl.
      destruct (read_flags data) as [[[ns i] r]|] eqn:Hflags.
      - right. by exists data, ns, i, r.
      - by left. }
    destruct Hcases as [Hfailed | (data & ns & i & r & -> & Hflags)].
    + destruct (run_failed options o Hfailed) as [-> ->].
      repeat split. destruct o as [| | |data]; try done.
      apply bool_decide_eq_true in Hfailed. by rewrite Hfailed.
    + destruct (run_parsed options data ns i r Hflags) as [-> ->].
      rewrite Hflags, no_redirects_publishes by done. by repeat split.
  - intros ns i r. cbv zeta.
    destruct (run_parsed options _ _ _ _ (read_flags_body ns i r)) as [-> ->].
    by rewrite no_redirects_publishes.
  - intros props. cbv beta zeta. unfold useSetupStatus.
    destruct (run_parsed options _ _ _ _ (read_flags_object props)) as [_ ->].
    rewrite no_redirects_publishes by done. unfold Policy.resolved.
    by destruct (props !! "initialized"), (props !! "needs_setup"),
      (props !! "registration_enabled").
Qed.

Lemma login_never_redirects_witness :
  Scenario.no_redirects None = true
  ∧ navigations
      (effects (run None (events (Body (Scenario.body true false false)))))
    = []
  ∧ state (run None (events (Body (Scenario.body true false false))))
    = {| isLoading := false;
         initialized := false;
         needsSetup := true;
         registrationEnabled := false |}.
Proof.
  split; [reflexivity|]. split.
  - apply (proj1 (login_never_redirects None eq_refl)).
  - apply (proj1 (proj2 (proj2 (login_never_redirects None eq_refl)))
             true false false).
Defined.

(** C9. On a successful response the probe reads the fields needs_setup,
    initialized and registration_enabled of the body, each through
    [Boolean], and a field the body lacks reads as false; these are the
    flags a page without redirects then publishes.  A field that holds a
    boolean reads as that boolean.  A body that is not an object has none
    of the fields; reading a field of null throws. *)
Theorem parses_three_fields :
  (∀ props : gmap string JS.Value,
     let field key :=
       match props !! key with
       | Some v => JS.Boolean v
       | None => false
       end in
     read_flags (JS.Object props)
     = Some (field "needs_setup", field "initialized",
             field "registration_enabled")
     ∧ useSetupStatus None (events (Body (JS.Object props)))
       = {| isLoading := false;
            initialized := field "initialized";
            needsSetup := field "needs_setup";
            registrationEnabled := field "registration_enabled" |})
  ∧ (∀ data : JS.Value,
       match data with
       | JS.Object _ => True
       | JS.Null | JS.Undefined => read_flags data = None
       | JS.Bool _ | JS.Number _ | JS.String _ | JS.Array _ =>
           read_flags data = Some (false, false, false)
       end)
  ∧ (∀ needs_setup initialized registration_enabled : bool,
       read_flags (Scenario.body needs_setup initialized registration_enabled)
       = Some (needs_setup, initialized, registration_enabled)
       ∧ useSetupStatus None
           (events (Body (Scenario.body needs_setup initialized
                            registration_enabled)))
         = {| isLoading := false;
              initialized := initialized;
              needsSetup := needs_setup;
              registrationEnabled := registration_enabled |})
  ∧ (∀ (props : gmap string JS.Value) (b : bool),
       let published key :=
         useSetupStatus None
           (events (Body (JS.Object (<[key := JS.Bool b]> props)))) in
       needsSetup (published "needs_setup") = b
       ∧ initialized (published "initialized") = b
       ∧ registrationEnabled (published "registration_enabled") = b).
Proof.
  split; [|split; [by intros []|split]].
  - intros props. cbv beta zeta.
    assert (Hfield : ∀ key,
      JS.Boolean (default JS.Undefined (props !! key))
      = match props !! key with Some v => JS.Boolean v | None => false end).
    { intros key. by destruct (props !! key). }
    rewrite <- !Hfield. split; [apply read_flags_object|].
    unfold useSetupStatus.
    destruct (run_parsed None _ _ _ _ (read_flags_object props)) as [_ ->].
    reflexivity.
  - intros ns i r. split; [apply read_flags_body|].
    unfold useSetupStatus.
    by destruct (run_parsed None _ _ _ _ (read_flags_body ns i r)) as [_ ->].
  - intros props b. cbv beta zeta. unfold useSetupStatus.
    repeat split.
    all: match goal with
         | |- context [JS.Object ?m] =>
             destruct (run_parsed None _ _ _ _ (read_flags_object m))
               as [_ ->]
         end.
    all: simpl; by rewrite lookup_insert_eq.
Qed.

Lemma parses_three_fields_witness :
  useSetupStatus None (events (Body (Scenario.body true false true)))
  = {| isLoading := false;
       initialized := false;
       needsSetup := true;
       registrationEnabled := true |}.
Proof.
  exact (proj2 (proj1 (proj2 (proj2 parses_three_fields)) true false true)).
Defined.

(** C10. Each of the three fields is coerced by truthiness, not checked
    to be a boolean: whatever value a field holds, the published flag is
    [Boolean] of it.  [Boolean] is false on undefined, null, false, the
    zeros, NaN and the empty string and true on everything else, so the
    string "false" and the number 1 read as true, and 0, the empty
    string, null and an absent field read as false. *)
Theorem truthiness_coercion :
  (∀ (props : gmap string JS.Value) (v : JS.Value),
     let published key :=
       useSetupStatus None (events (Body (JS.Object (<[key := v]> props)))) in
     needsSetup (published "needs_setup") = JS.Boolean v
     ∧ initialized (published "initialized") = JS.Boolean v
     ∧ registrationEnabled (published "registration_enabled") = JS.Boolean v)
  ∧ (∀ v, JS.Boolean v = false
          ↔ v = JS.Undefined ∨ v = JS.Null ∨ v = JS.Bool false
            ∨ (∃ sign, v = JS.Number (S754_zero sign))
            ∨ v = JS.Number S754_nan ∨ v = JS.String "")
  ∧ JS.Boolean (JS.String "false") = true
  ∧ JS.Boolean (JS.Number Scenario.one) = true
  ∧ JS.Boolean (JS.Number Scenario.zero) = false
  ∧ JS.Boolean (JS.String "") = false
  ∧ JS.Boolean JS.Null = false
  ∧ read_flags (JS.Object ∅) = Some (false, false, false)
  ∧ useSetupStatus None (events (Body Scenario.untyped_body))
    = {| isLoading := false;
         initialized := true;
         needsSetup := true;
         registrationEnabled := false |}.
Proof.
  split; [|split; [|by vm_compute]].
  - intros props v. cbv beta zeta. unfold useSetupStatus.
    repeat split.
    all: match goal with
         | |- context [JS.Object ?m] =>
             destruct (run_parsed None _ _ _ _ (read_flags_object m))
               as [_ ->]
         end.
    all: simpl; by rewrite lookup_insert_eq.
  - intros v. split.
    + destruct v as [| |[]|[]|s| |]; simpl; try discriminate; eauto 10.
      destruct (String.eqb_spec s ""); [subst; eauto 10 | discriminate].
    + intros [->|[->|[->|[[sign ->]|[->| ->]]]]]; reflexivity.
Qed.

End Statements.

(** ** Setup-status probe: what an activation can have done *)

Section Reach.
Import Probe.
Variable options : SetupStatusOptions.

(** The exits of a step, with the rule that took each. *)
Lemma step_exits_by_rule a ev :
  step options a ev = a
  ∨ step options a ev = cancel a
  ∨ step options a ev = suspend AwaitingBody a ∧ phase a = AwaitingResponse
  ∨ phase a ≠ Settled
    ∧ (step options a ev = unless_cancelled stop_loading a
       ∨ (∃ ns i r,
            Policy.first_match (Policy.rules options ns i r) = None
            ∧ step options a ev
              = unless_cancelled (λ _, Policy.resolved ns i r) a)
       ∨ (∃ href ns i r,
            Policy.first_match (Policy.rules options ns i r) = Some href
            ∧ step options a ev = navigate href a)).
Proof.
  unfold step.
  destruct ev as [ok| |data| |], (phase a) eqn:Hphase; auto;
    right; right.
  - destruct ok; simpl; [by left|]. right. split; [done|]. by left.
  - right. split; [done|]. by left.
  - right. split; [done|].
    destruct (read_flags data) as [[[ns i] r]|] eqn:Hflags.
    + rewrite (with_data_first_match _ _ _ _ _ _ Hflags).
      destruct (Policy.first_match _) as [href|] eqn:Hrule.
      * right; right. by exists href, ns, i, r.
      * right; left. by exists ns, i, r.
    + rewrite (with_data_throws _ _ _ Hflags). by left.
  - right. split; [done|]. by left.
Qed.

(** After [checkSetupStatus] has returned, an event can only set the
    flag. *)
Lemma settled_step_inert a ev :
  phase a = Settled → step options a ev = a ∨ step options a ev = cancel a.
Proof.
  intros Hphase.
  destruct (step_cases options a ev)
    as [-> | [-> | [[_ Hp] | [Hp _]]]]; auto; congruence.
Qed.

(** Every reachable activation has done nothing yet, or has navigated once
    on a matching rule, or has published once: the defaults with the
    loading flag cleared, or a resolved status that no rule matched. *)
Lemma activation_shape history :
  let a := fold_left (step options) history mount in
  (effects a = [] ∧ state a = initial_state)
  ∨ (phase a = Settled
     ∧ state a = initial_state
     ∧ ∃ href ns i r,
         effects a = [Navigate href]
         ∧ Policy.first_match (Policy.rules options ns i r) = Some href)
  ∨ (phase a = Settled
     ∧ effects a = [SetState (state a)]
     ∧ (state a = stop_loading initial_state
        ∨ ∃ ns i r,
            state a = Policy.resolved ns i r
            ∧ Policy.first_match (Policy.rules options ns i r) = None)).
Proof.
  induction history as [|ev history IH] using rev_ind; [by left|].
  rewrite fold_left_app. simpl.
  set (a := fold_left (step options) history mount) in *. cbv zeta in IH.
  destruct IH as [[Heff Hstate] | [(Hphase & Hstate & Hnav) | (Hphase & Hrest)]].
  - destruct (step_exits_by_rule a ev)
      as [-> | [-> | [[-> _] | [_ [-> | [(ns & i & r & Hrule & ->)
                                        | (href & ns & i & r & Hrule & ->)]]]]]].
    + by left.
    + by left.
    + by left.
    + unfold unless_cancelled. destruct (negb (isCancelled a)); [|by left].
      right; right. simpl. rewrite Heff, Hstate. auto.
    + unfold unless_cancelled. destruct (negb (isCancelled a)); [|by left].
      right; right. simpl. rewrite Heff. repeat split. right.
      by exists ns, i, r.
    + right; left. simpl. rewrite Heff. repeat split; [done|].
      by exists href, ns, i, r.
  - right; left.
    destruct (settled_step_inert a ev Hphase) as [-> | ->]; by simpl.
  - right; right.
    destruct (settled_step_inert a ev Hphase) as [-> | ->]; by simpl.
Qed.

End Reach.

(** ** Setup-status probe: further properties *)

Section ProbeFacts.
Import Probe.

Lemma settled_steps_inert options more : ∀ a,
  phase a = Settled →
  state (fold_left (step options) more a) = state a
  ∧ effects (fold_left (step options) more a) = effects a.
Proof.
  induction more as [|ev more IH]; intros a Hphase; [done|].
  simpl. destruct (settled_step_inert options a ev Hphase) as [-> | ->].
  - by apply IH.
  - by destruct (IH (cancel a) Hphase) as [-> ->].
Qed.

(** A rule can only send the browser to "/setup" or to "/login". *)
Lemma first_match_target options ns i r href :
  Policy.first_match (Policy.rules options ns i r) = Some href →
  href = "/setup" ∨ href = "/login".
Proof.
  unfold Policy.first_match, Policy.rules.
  destruct (default false (redirectToSetupIfNeeded options)),
    (default false (redirectToLoginIfRegistrationClosed options)),
    (default false (redirectToLoginIfInitialized options)),
    ns, i, r; simpl; intros [= <-] || discriminate; auto.
Qed.

(** X1. Whatever the policy and whatever arrives, in whatever order, an
    activation issues at most one effect: one navigation or one
    publication, never both and never two. *)
Theorem at_most_one_effect (options : option SetupStatusOptions)
    (history : list Event) :
  (length (effects (run options history)) ≤ 1)%nat
  ∧ (length (navigations (effects (run options history)))
     + length (publications (effects (run options history))) ≤ 1)%nat.
Proof.
  unfold run.
  destruct (activation_shape (default empty_options options) history)
    as [[-> _] | [(_ & _ & href & ns & i & r & -> & _) | (_ & -> & _)]];
    simpl; lia.
Qed.

(** X2. Once [checkSetupStatus] has returned, nothing that arrives later,
    a second resolution included, changes the status or adds an effect. *)
Theorem settled_is_terminal (options : option SetupStatusOptions)
    (history more : list Event) :
  phase (run options history) = Settled →
  useSetupStatus options (history ++ more) = useSetupStatus options history
  ∧ effects (run options (history ++ more)) = effects (run options history).
Proof.
  intros Hphase. unfold useSetupStatus, run in *. rewrite fold_left_app.
  by apply settled_steps_inert.
Qed.

Lemma settled_is_terminal_witness :
  phase (run (Some Scenario.register_page)
           (events (Body (Scenario.body true false true)))) = Settled
  ∧ effects (run (Some Scenario.register_page)
               (events (Body (Scenario.body true false true))
                ++ events (Body (Scenario.body false true true))))
    = effects (run (Some Scenario.register_page)
                 (events (Body (Scenario.body true false true)))).
Proof.
  split; [by vm_compute|].
  apply (settled_is_terminal (Some Scenario.register_page)). by vm_compute.
Defined.

(** X3. An activation that has navigated has published nothing: the hook
    still returns its initial, loading status, on this and on every later
    render. *)
Theorem navigation_keeps_loading (options : option SetupStatusOptions)
    (history more : list Event) :
  navigations (effects (run options history)) ≠ [] →
  useSetupStatus options (history ++ more) = initial_state
  ∧ publications (effects (run options (history ++ more))) = [].
Proof.
  intros Hnav.
  assert (Hshape : phase (run options history) = Settled
                   ∧ state (run options history) = initial_state
                   ∧ publications (effects (run options history)) = []).
  { unfold run in *.
    destruct (activation_shape (default empty_options options) history)
      as [[Heff _] | [(Hphase & Hstate & href & ns & i & r & Heff & _)
                     | (_ & Heff & _)]];
      rewrite Heff in Hnav |- *; try done. }
  destruct Hshape as (Hphase & Hstate & Hpub).
  unfold useSetupStatus, run in *. rewrite fold_left_app.
  by destruct (settled_steps_inert (default empty_options options) more _ Hphase)
    as [-> ->].
Qed.

Lemma navigation_keeps_loading_witness :
  navigations (effects (run (Some Scenario.only_setup)
                          (events (Body (Scenario.body true false true)))))
  ≠ []
  ∧ useSetupStatus (Some Scenario.only_setup)
      (events (Body (Scenario.body true false true)) ++ [Cleanup])
    = initial_state.
Proof.
  split; [by vm_compute|].
  apply (navigation_keeps_loading (Some Scenario.only_setup)).
  by vm_compute.
Defined.

(** X4. Every navigation of the probe goes to "/setup" or to "/login",
    both public auth paths: the route gate renders the target page
    without the shell, whatever the session token. *)
Theorem navigation_targets_public (options : option SetupStatusOptions)
    (history : list Event) (href : string) :
  href ∈ navigations (effects (run options history)) →
  (href = "/setup" ∨ href = "/login")
  ∧ isAuthPublicPath (Some href) = true
  ∧ ∀ token children,
      Layout.LayoutContent (Some href) token children
      = Layout.Fragment [children].
Proof.
  intros Hin.
  assert (Htarget : href = "/setup" ∨ href = "/login").
  { unfold run in Hin.
    destruct (activation_shape (default empty_options options) history)
      as [[Heff _] | [(_ & _ & href' & ns & i & r & Heff & Hrule)
                     | (_ & Heff & _)]];
      rewrite Heff in Hin; simpl in Hin.
    - by apply elem_of_nil in Hin.
    - apply list_elem_of_singleton in Hin. subst href'.
      by eapply first_match_target.
    - by apply elem_of_nil in Hin. }
  split; [done|].
  destruct Htarget as [-> | ->]; by split.
Qed.

Lemma navigation_targets_public_witness :
  "/login" ∈ navigations
               (effects (run (Some Scenario.only_registration_closed)
                           (events (Body (Scenario.body false false false)))))
  ∧ isAuthPublicPath (Some "/login") = true.
Proof.
  assert (Hin : "/login" ∈ navigations
                  (effects (run (Some Scenario.only_registration_closed)
                              (events (Body (Scenario.body false false false)))))).
  { vm_compute. apply list_elem_of_here. }
  split; [exact Hin|].
  exact (proj1 (proj2 (navigation_targets_public _ _ _ Hin))).
Defined.

End ProbeFacts.

Section PolicyFacts.
Import Probe.

(** X5. When the body reports that setup is needed, no policy sends the
    browser to "/login": the activation navigates to "/setup" if the page
    asked for that redirect, and publishes the status otherwise. *)
Theorem needs_setup_never_login (options : option SetupStatusOptions)
    (data : JS.Value) (initialized registrationEnabled : bool) :
  read_flags data = Some (true, initialized, registrationEnabled) →
  let a := run options (events (Body data)) in
  ("/login" ∉ navigations (effects a))
  ∧ effects a
    = if default false
           (redirectToSetupIfNeeded (default empty_options options))
      then [Navigate "/setup"]
      else [SetState (Policy.resolved true initialized registrationEnabled)].
Proof.
  intros Hflags. cbv zeta.
  destruct (run_parsed options data _ _ _ Hflags) as [-> _].
  unfold Policy.decide_effect, Policy.first_match, Policy.rules.
  destruct (default false (redirectToSetupIfNeeded _)),
    (default false (redirectToLoginIfRegistrationClosed _)),
    (default false (redirectToLoginIfInitialized _)),
    initialized, registrationEnabled; simpl; split; try done;
    intros Hin;
    first [by apply elem_of_nil in Hin
          | by apply list_elem_of_singleton in Hin].
Qed.

Lemma needs_setup_never_login_witness :
  read_flags (Scenario.body true true false) = Some (true, true, false)
  ∧ "/login" ∉ navigations
                 (effects (run (Some Setup.options)
                             (events (Body (Scenario.body true true false))))).
Proof.
  split; [by vm_compute|].
  apply (needs_setup_never_login (Some Setup.options)
           (Scenario.body true true false) true false).
  by vm_compute.
Defined.

(** X6. A page that redirects to login once the system is initialized
    does so whenever the body reports initialized and no setup needed,
    whatever its other flags and whatever the body says of registration;
    it publishes nothing. *)
Theorem initialized_redirects_to_login (options : option SetupStatusOptions)
    (data : JS.Value) (registrationEnabled : bool) :
  default false (redirectToLoginIfInitialized (default empty_options options))
  = true →
  read_flags data = Some (false, true, registrationEnabled) →
  let a := run options (events (Body data)) in
  effects a = [Navigate "/login"] ∧ state a = initial_state.
Proof.
  intros Hflag Hflags. cbv zeta.
  destruct (run_parsed options data _ _ _ Hflags) as [-> ->].
  unfold Policy.decide_effect, Policy.first_match, Policy.rules.
  rewrite Hflag.
  by destruct (default false (redirectToSetupIfNeeded _)),
    (default false (redirectToLoginIfRegistrationClosed _)),
    registrationEnabled.
Qed.

Lemma initialized_redirects_to_login_witness :
  effects (run (Some Setup.options)
             (events (Body (Scenario.body false true false))))
  = [Navigate "/login"].
Proof.
  apply (initialized_redirects_to_login (Some Setup.options)
           (Scenario.body false true false) false); by vm_compute.
Defined.

(** X7. The probe looks at no other field of the body: adding or
    replacing a field with another name changes nothing of what the
    activation does. *)
Theorem other_fields_ignored (options : option SetupStatusOptions)
    (props : gmap string JS.Value) (key : string) (v : JS.Value) :
  key ≠ "needs_setup" → key ≠ "initialized" → key ≠ "registration_enabled" →
  read_flags (JS.Object (<[key := v]> props)) = read_flags (JS.Object props)
  ∧ run options (events (Body (JS.Object (<[key := v]> props))))
    = run options (events (Body (JS.Object props))).
Proof.
  intros H1 H2 H3.
  assert (Hflags : read_flags (JS.Object (<[key := v]> props))
                   = read_flags (JS.Object props)).
  { rewrite !read_flags_object. by rewrite !lookup_insert_ne. }
  split; [done|].
  unfold run. simpl. unfold with_data. by rewrite Hflags.
Qed.

Lemma other_fields_ignored_witness :
  run (Some Register.options)
    (events (Body (JS.Object (<["version" := JS.String "1"]> ∅))))
  = run (Some Register.options) (events (Body (JS.Object ∅))).
Proof.
  by apply (other_fields_ignored (Some Register.options) ∅ "version"
              (JS.String "1")).
Defined.

(** X8. The Register page shows its form only while the probe's status
    says that no setup is needed and registration is open, whatever has
    arrived: a response saying otherwise redirects instead, and a failed
    request leaves the optimistic defaults. *)
Theorem register_form_only_when_open (history : list Event)
    (page : Register.Page) (view : Register.View) :
  Register.RegisterPage (useSetupStatus (Some Register.options) history) page
  = Some view →
  needsSetup (useSetupStatus (Some Register.options) history) = false
  ∧ registrationEnabled (useSetupStatus (Some Register.options) history) = true.
Proof.
  unfold Register.RegisterPage, useSetupStatus, run. simpl.
  destruct (activation_shape Register.options history)
    as [[_ ->] | [(_ & -> & _) | (_ & _ & [-> | (ns & i & r & -> & Hrule)])]];
    try done.
  intros _. by destruct ns, r.
Qed.

Lemma register_form_only_when_open_witness :
  registrationEnabled
    (useSetupStatus (Some Register.options)
       (events (Body (Scenario.body false true true)))) = true.
Proof.
  exact (proj2 (register_form_only_when_open
                  (events (Body (Scenario.body false true true)))
                  Register.initial _ eq_refl)).
Defined.

(** X9. The Setup page shows its form only while the probe's status does
    not say initialized with no setup needed. *)
Theorem setup_form_only_when_uninitialized (history : list Event)
    (page : Setup.Page) (view : Setup.View) :
  Setup.SetupPage (useSetupStatus (Some Setup.options) history) page
  = Some view →
  initialized (useSetupStatus (Some Setup.options) history)
  && negb (needsSetup (useSetupStatus (Some Setup.options) history)) = false.
Proof.
  unfold Setup.SetupPage, useSetupStatus, run. simpl.
  destruct (activation_shape Setup.options history)
    as [[_ ->] | [(_ & -> & _) | (_ & _ & [-> | (ns & i & r & -> & Hrule)])]];
    try done.
  intros _. by destruct ns, i.
Qed.

Lemma setup_form_only_when_uninitialized_witness :
  initialized
    (useSetupStatus (Some Setup.options)
       (events (Body (Scenario.body true true true))))
  && negb (needsSetup
             (useSetupStatus (Some Setup.options)
                (events (Body (Scenario.body true true true))))) = false.
Proof.
  exact (setup_form_only_when_uninitialized
           (events (Body (Scenario.body true true true)))
           Setup.initial _ eq_refl).
Defined.

End PolicyFacts.

(** ** Route classification: further properties *)

(** X10. No public auth path has a public extension: a public path
    followed by anything, a trailing slash included, is protected. *)
Theorem public_paths_have_no_extensions (path suffix : string) :
  isAuthPublicPath (Some path) = true →
  suffix ≠ "" →
  isAuthPublicPath (Some (String.append path suffix)) = false.
Proof.
  intros Hpublic Hsuffix. unfold isAuthPublicPath in Hpublic.
  destruct (path =? "")%string; [discriminate|].
  apply includes_spec in Hpublic. unfold AUTH_PUBLIC_PATHS in Hpublic.
  rewrite !elem_of_cons, elem_of_nil in Hpublic.
  destruct suffix as [|c suffix]; [done|].
  destruct Hpublic as [-> | [-> | [-> | []]]]; reflexivity.
Qed.

Lemma public_paths_have_no_extensions_witness :
  isAuthPublicPath (Some "/login/") = false.
Proof.
  apply (public_paths_have_no_extensions "/login" "/"); [reflexivity|discriminate].
Defined.

(** ** The Register and Setup pages *)

Section Pages.
Import Form.
Variable t : string → string.

(** X11. [handleSubmit] of the Register page posts exactly when the two
    passwords are equal and have at least six code units; it then posts
    once, to the register endpoint, the username and password of the form,
    and sets the loading flag.  Otherwise it posts nothing, leaves the
    loading flag and reports the mismatch first, the length second.  The
    form data is never changed and the success message is cleared. *)
Theorem register_submit_gate (s : Register.Page) :
  let data := Register.formData s in
  let matching :=
    bool_decide (Register.password data = Register.confirmPassword data) in
  let long := (6 <=? length (Register.password data))%nat in
  let s' := (Register.handleSubmit t s).1 in
  let log := (Register.handleSubmit t s).2 in
  posted log
  = (if matching && long
     then [("/api/auth/register", Register.username data, Register.password data)]
     else [])
  ∧ Register.isLoading s'
    = (if matching && long then true else Register.isLoading s)
  ∧ Register.error s'
    = JS.String
        (if negb matching then t "register.alerts.password_mismatch"
         else if negb long then t "register.alerts.password_too_short"
         else "")
  ∧ Register.success s' = ""
  ∧ Register.formData s' = data
  ∧ navigations log = [] ∧ timers log = [].
Proof.
  cbv zeta. unfold Register.handleSubmit.
  destruct (decide (Register.password (Register.formData s)
                    = Register.confirmPassword (Register.formData s)))
    as [Heq|Hne].
  - rewrite (bool_decide_eq_false_2 (_ ≠ _)) by (intros Hne; by apply Hne).
    rewrite (bool_decide_eq_true_2 _ Heq).
    destruct (Nat.ltb_spec (length (Register.password (Register.formData s))) 6)
      as [Hshort|Hlong].
    + rewrite (proj2 (Nat.leb_gt _ _) Hshort). by simpl.
    + rewrite (proj2 (Nat.leb_le _ _) Hlong). by simpl.
  - rewrite (bool_decide_eq_true_2 (_ ≠ _) Hne).
    rewrite (bool_decide_eq_false_2 _ Hne). by simpl.
Qed.

(** X12. [onSubmit] of the Setup page posts exactly when the username is
    not empty, the password has at least six code units and the two
    passwords are equal; it reports a missing field first, the length
    second, the mismatch third. *)
Theorem setup_submit_gate (s : Setup.Page) :
  let filled :=
    negb (Register.is_empty (Setup.username s)
          || Register.is_empty (Setup.password s)) in
  let long := (6 <=? length (Setup.password s))%nat in
  let matching := bool_decide (Setup.password s = Setup.confirmPassword s) in
  let s' := (Setup.onSubmit t s).1 in
  let log := (Setup.onSubmit t s).2 in
  posted log
  = (if negb (Register.is_empty (Setup.username s)) && long && matching
     then [("/api/auth/setup-admin", Setup.username s, Setup.password s)]
     else [])
  ∧ Setup.isLoading s'
    = (if filled && long && matching then true else Setup.isLoading s)
  ∧ Setup.error s'
    = JS.String
        (if negb filled then t "setup.errors.required"
         else if negb long then t "setup.errors.passwordTooShort"
         else if negb matching then t "setup.errors.passwordMismatch"
         else "")
  ∧ (Setup.username s', Setup.password s', Setup.confirmPassword s')
    = (Setup.username s, Setup.password s, Setup.confirmPassword s)
  ∧ navigations log = [] ∧ timers log = [].
Proof.
  cbv zeta. unfold Setup.onSubmit.
  assert (Hlong : Register.is_empty (Setup.password s) = true →
                  (6 <=? length (Setup.password s))%nat = false).
  { by destruct (Setup.password s). }
  destruct (Register.is_empty (Setup.username s)); [by simpl|].
  destruct (Register.is_empty (Setup.password s)) eqn:Hempty.
  { rewrite Hlong by done. by simpl. }
  clear Hlong.
  destruct (Nat.ltb_spec (length (Setup.password s)) 6) as [Hshort|Hok].
  { rewrite (proj2 (Nat.leb_gt _ _) Hshort). by simpl. }
  rewrite (proj2 (Nat.leb_le _ _) Hok).
  destruct (decide (Setup.password s = Setup.confirmPassword s)) as [Heq|Hne].
  - rewrite (bool_decide_eq_false_2 (_ ≠ _)) by (intros Hne; by apply Hne).
    rewrite (bool_decide_eq_true_2 _ Heq). by simpl.
  - rewrite (bool_decide_eq_true_2 (_ ≠ _) Hne).
    rewrite (bool_decide_eq_false_2 _ Hne). by simpl.
Qed.

Ltac by_reply reply :=
  destruct reply as [|?|[] data]; simpl;
  repeat case_match; simpl in *; simplify_eq; try done.

(** X13. However the request of the Register page ends, the loading flag
    is cleared, the form data is kept and the browser is not sent anywhere
    at once.  A timer that goes to "/login" after 2000 ms is set, and the
    success message shown, exactly when the response is ok and its body
    has a truthy [success]; the error is then left as it was. *)
Theorem register_completion (reply : Reply) (s : Register.Page) :
  let s' := (Register.resume t reply s).1 in
  let log := (Register.resume t reply s).2 in
  Register.isLoading s' = false
  ∧ Register.formData s' = Register.formData s
  ∧ navigations log = [] ∧ posted log = []
  ∧ timers log = (if accepted reply then [("/login", 2000%N)] else [])
  ∧ (if accepted reply
     then Register.success s' = t "register.alerts.success"
          ∧ Register.error s' = Register.error s
     else Register.success s' = Register.success s).
Proof.
  cbv zeta.
  unfold Register.resume, Register.answered, Register.rejected,
    Register.caught, accepted.
  by_reply reply.
Qed.

(** X14. However the request of the Setup page ends, the loading flag is
    cleared and the fields are kept.  The browser is sent to "/login", at
    once and without a timer, exactly when the response is ok and its body
    has a truthy [success]; the error is then left as it was. *)
Theorem setup_completion (reply : Reply) (s : Setup.Page) :
  let s' := (Setup.resume t reply s).1 in
  let log := (Setup.resume t reply s).2 in
  Setup.isLoading s' = false
  ∧ (Setup.username s', Setup.password s', Setup.confirmPassword s')
    = (Setup.username s, Setup.password s, Setup.confirmPassword s)
  ∧ timers log = [] ∧ posted log = []
  ∧ navigations log = (if accepted reply then ["/login"] else [])
  ∧ (if accepted reply then Setup.error s' = Setup.error s else True).
Proof.
  cbv zeta.
  unfold Setup.resume, Setup.answered, Setup.rejected, Setup.caught, accepted.
  by_reply reply.
Qed.

Lemma or_else_truthy message fallback :
  fallback ≠ "" → JS.Boolean (or_else message fallback) = true.
Proof.
  intros Hne. unfold or_else.
  destruct (JS.Boolean message) eqn:Hm; [done|]. simpl.
  apply String.eqb_neq in Hne. by rewrite Hne.
Qed.

Lemma register_refused_error reply s :
  accepted reply = false →
  Register.error (Register.resume t reply s).1
  = JS.String (t "register.alerts.failed_retry")
  ∨ ∃ ok data message,
      reply = Json ok data
      ∧ JS.get data "message" = Some message
      ∧ Register.error (Register.resume t reply s).1
        = or_else message (t "register.alerts.failed").
Proof.
  unfold Register.resume, Register.answered, Register.rejected,
    Register.caught, accepted.
  by_reply reply; eauto 10.
Qed.

Lemma setup_refused_error reply s :
  accepted reply = false →
  Setup.error (Setup.resume t reply s).1 = JS.String (t "setup.errors.failed")
  ∨ ∃ ok data message,
      reply = Json ok data
      ∧ JS.get data "message" = Some message
      ∧ Setup.error (Setup.resume t reply s).1
        = or_else message (t "setup.errors.failed").
Proof.
  unfold Setup.resume, Setup.answered, Setup.rejected, Setup.caught, accepted.
  by_reply reply; eauto 10.
Qed.

(** An error left by a refusal that React cannot take as a child is the
    message of the body, stored as it came. *)
Lemma unrenderable_is_message reply error text fallback :
  (error = JS.String text
   ∨ ∃ ok data message,
       reply = Json ok data
       ∧ JS.get data "message" = Some message
       ∧ error = or_else message fallback) →
  Render.valid_child error = false →
  ∃ ok data, reply = Json ok data ∧ JS.get data "message" = Some error.
Proof.
  intros [-> | (ok & data & message & -> & Hget & ->)] Hinvalid;
    [discriminate|].
  unfold or_else in *.
  destruct (JS.Boolean message); [by eauto | discriminate].
Qed.

(** X15. When no translation is empty, a request that is not accepted
    leaves a truthy error on either page, and the component returns the
    error alert that holds it.  React shows the alert when the error is a
    valid child; the error is not one only when it is the [message] of
    the body, stored as it came, and then the render throws.  Either way
    the page does not carry on as though nothing had failed. *)
Theorem failure_shows_alert (reply : Reply) (register : Register.Page)
    (setup : Setup.Page) (status : Probe.SetupStatusState) :
  (∀ key, t key ≠ "") →
  accepted reply = false →
  Probe.isLoading status = false →
  let register' := (Register.resume t reply register).1 in
  let setup' := (Setup.resume t reply setup).1 in
  (JS.Boolean (Register.error register') = true
   ∧ Register.errorAlert <$> Register.RegisterPage status register'
     = Some (Some (Register.error register'))
   ∧ (if Render.valid_child (Register.error register')
      then ∃ view,
             Render.register status register' = Render.Shown view
             ∧ Register.errorAlert view = Some (Register.error register')
      else Render.register status register' = Render.Thrown
           ∧ ∃ ok data,
               reply = Json ok data
               ∧ JS.get data "message" = Some (Register.error register')))
  ∧ (JS.Boolean (Setup.error setup') = true
     ∧ Setup.errorAlert <$> Setup.SetupPage status setup'
       = Some (Some (Setup.error setup'))
     ∧ (if Render.valid_child (Setup.error setup')
        then ∃ view,
               Render.setup status setup' = Render.Shown view
               ∧ Setup.errorAlert view = Some (Setup.error setup')
        else Render.setup status setup' = Render.Thrown
             ∧ ∃ ok data,
                 reply = Json ok data
                 ∧ JS.get data "message" = Some (Setup.error setup'))).
Proof.
  intros Ht Hrefused Hloaded. cbv zeta.
  assert (Htext : ∀ key, JS.Boolean (JS.String (t key)) = true).
  { intros key. simpl. specialize (Ht key).
    apply String.eqb_neq in Ht. by rewrite Ht. }
  pose proof (register_refused_error reply register Hrefused) as Hregister.
  pose proof (setup_refused_error reply setup Hrefused) as Hsetup.
  split.
  - assert (Htruthy :
      JS.Boolean (Register.error (Register.resume t reply register).1) = true).
    { destruct Hregister as [-> | (? & ? & ? & _ & _ & ->)];
        by rewrite ?Htext, ?or_else_truthy. }
    unfold Render.register, Render.commit, Register.RegisterPage.
    rewrite Hloaded, Htruthy. simpl. repeat split.
    destruct (Render.valid_child _) eqn:Hvalid.
    + by eexists.
    + split; [done|].
      exact (unrenderable_is_message _ _ _ _ Hregister Hvalid).
  - assert (Htruthy :
      JS.Boolean (Setup.error (Setup.resume t reply setup).1) = true).
    { destruct Hsetup as [-> | (? & ? & ? & _ & _ & ->)];
        by rewrite ?Htext, ?or_else_truthy. }
    unfold Render.setup, Render.commit, Setup.SetupPage.
    rewrite Hloaded, Htruthy. simpl. repeat split.
    destruct (Render.valid_child _) eqn:Hvalid.
    + by eexists.
    + split; [done|].
      exact (unrenderable_is_message _ _ _ _ Hsetup Hvalid).
Qed.

(** X16. On either page, a truthy [message] in the body of a response
    that is not accepted is shown as it comes, whether the response was ok
    or not; without one the page falls back to its own text. *)
Theorem server_message_shown (ok : bool) (data message : JS.Value)
    (register : Register.Page) (setup : Setup.Page) :
  accepted (Json ok data) = false →
  JS.get data "message" = Some message →
  Register.error (Register.resume t (Json ok data) register).1
  = (if JS.Boolean message then message
     else JS.String (t "register.alerts.failed"))
  ∧ Setup.error (Setup.resume t (Json ok data) setup).1
    = (if JS.Boolean message then message
       else JS.String (t "setup.errors.failed")).
Proof.
  unfold Register.resume, Register.answered, Register.rejected,
    Setup.resume, Setup.answered, Setup.rejected, accepted, or_else.
  intros Hrefused Hmessage. rewrite Hmessage.
  destruct ok; [|done].
  destruct (JS.get data "success") as [v|] eqn:Hsuccess.
  - by rewrite Hrefused.
  - destruct data; simpl in *; discriminate.
Qed.

(** X17. Typing into a field of the Register page sets that field and no
    other, removes both alerts and leaves the loading flag. *)
Theorem input_change_clears_alerts (field : Register.Field) (value : Text)
    (s : Register.Page) :
  let s' := Register.handleInputChange field value s in
  Register.read field (Register.formData s') = value
  ∧ (∀ other, other ≠ field →
       Register.read other (Register.formData s')
       = Register.read other (Register.formData s))
  ∧ JS.Boolean (Register.error s') = false
  ∧ Register.success s' = ""
  ∧ Register.isLoading s' = Register.isLoading s.
Proof.
  cbv zeta. unfold Register.handleInputChange.
  destruct (JS.Boolean (Register.error s)) eqn:Herror,
    (String.eqb_spec (Register.success s) "") as [Hsuccess|Hsuccess];
    simpl; rewrite ?Herror; repeat split; try done;
    try (by destruct field);
    by (intros other Hother; destruct field, other).
Qed.

(** X18. While the submit button of the Register page is enabled the
    page is not loading, and a request that [handleSubmit] then posts
    carries a username that is not empty and a password of at least six
    code units, both as typed. *)
Theorem enabled_submit_is_filled (status : Probe.SetupStatusState)
    (s : Register.Page) (view : Register.View)
    (endpoint : string) (username password : Text) :
  Register.RegisterPage status s = Some view →
  Register.submitDisabled view = false →
  (endpoint, username, password) ∈ posted (Register.handleSubmit t s).2 →
  Register.isLoading s = false
  ∧ username = Register.username (Register.formData s)
  ∧ password = Register.password (Register.formData s)
  ∧ username ≠ []
  ∧ (6 ≤ length password)%nat
  ∧ password = Register.confirmPassword (Register.formData s).
Proof.
  unfold Register.RegisterPage.
  destruct (Probe.isLoading status); [discriminate|].
  intros [= <-]. simpl.
  intros (((Huser & _)%orb_false_elim & _)%orb_false_elim
          & Hloading)%orb_false_elim.
  unfold Register.handleSubmit.
  destruct (decide (Register.password (Register.formData s)
                    = Register.confirmPassword (Register.formData s)))
    as [Heq|Hne].
  - rewrite (bool_decide_eq_false_2 (_ ≠ _)) by (intros Hne; by apply Hne).
    destruct (Nat.ltb_spec (length (Register.password (Register.formData s))) 6)
      as [Hshort|Hlong]; simpl.
    + by intros ?%elem_of_nil.
    + intros [= -> -> ->]%list_elem_of_singleton.
      repeat split; try done.
      by destruct (Register.username (Register.formData s)).
  - rewrite (bool_decide_eq_true_2 (_ ≠ _) Hne). simpl.
    by intros ?%elem_of_nil.
Qed.

Lemma register_resume_log reply s :
  (Register.resume t reply s).2 = []
  ∨ (Register.resume t reply s).2 = [ConsoleError]
  ∨ (Register.resume t reply s).2 = [SetTimeout "/login" 2000].
Proof.
  unfold Register.resume, Register.answered, Register.rejected,
    Register.caught.
  by_reply reply; auto.
Qed.

Lemma setup_resume_log reply s :
  (Setup.resume t reply s).2 = []
  ∨ (Setup.resume t reply s).2 = [Navigate "/login"].
Proof.
  unfold Setup.resume, Setup.answered, Setup.rejected, Setup.caught.
  by_reply reply; auto.
Qed.

End Pages.

Lemma failure_shows_alert_witness :
  Example.keys "register.alerts.failed_retry" ≠ ""
  ∧ Form.accepted (Form.Json false Example.structured) = false
  ∧ Render.register Example.loaded
      (Register.resume Example.keys (Form.Json false Example.structured)
         Example.filled).1
    = Render.Thrown.
Proof.
  split; [discriminate|]. split; [reflexivity|].
  assert (Hkeys : ∀ key, Example.keys key ≠ "") by (intros key; discriminate).
  exact (proj1 (proj2 (proj2 (proj1
           (failure_shows_alert Example.keys
              (Form.Json false Example.structured)
              Example.filled Setup.initial Example.loaded
              Hkeys eq_refl eq_refl))))).
Defined.

Lemma server_message_shown_witness :
  Form.accepted (Form.Json false Example.taken) = false
  ∧ Register.error
      (Register.resume Example.keys (Form.Json false Example.taken)
         Example.filled).1
    = JS.String "Username already exists".
Proof.
  split; [reflexivity|].
  exact (proj1 (server_message_shown Example.keys false Example.taken
                  (JS.String "Username already exists")
                  Example.filled Setup.initial eq_refl eq_refl)).
Defined.

Lemma enabled_submit_is_filled_witness :
  Register.submitDisabled
    <$> Register.RegisterPage Example.loaded Example.filled = Some false
  ∧ Register.isLoading Example.filled = false.
Proof.
  split; [reflexivity|].
  refine (proj1 (enabled_submit_is_filled Example.keys Example.loaded
                   Example.filled _ "/api/auth/register"
                   [97%N] [115; 101; 99; 114; 101; 116]%N
                   eq_refl eq_refl _)).
  apply list_elem_of_here.
Defined.

(** X19. Neither page ever sends the browser anywhere but to "/login",
    at once or by timer, and "/login" is a public auth path, so the page
    that follows a registration or a setup is rendered without the
    shell. *)
Theorem forms_lead_to_login (t : string → string) (reply : Form.Reply)
    (register : Register.Page) (setup : Setup.Page) (href : string) :
  href ∈ Form.navigations (Register.resume t reply register).2
         ++ (Form.timers (Register.resume t reply register).2).*1
         ++ Form.navigations (Setup.resume t reply setup).2
         ++ (Form.timers (Setup.resume t reply setup).2).*1 →
  href = "/login" ∧ isAuthPublicPath (Some href) = true.
Proof.
  destruct (register_resume_log t reply register) as [-> | [-> | ->]];
    destruct (setup_resume_log t reply setup) as [-> | ->]; simpl;
    rewrite ?elem_of_cons, ?elem_of_nil; intros Hin;
    repeat destruct Hin as [Hin|Hin]; try done; by subst.
Qed.

Lemma forms_lead_to_login_witness :
  isAuthPublicPath (Some "/login") = true.
Proof.
  refine (proj2 (forms_lead_to_login Example.keys
                   (Form.Json true Example.welcome)
                   Register.initial Setup.initial "/login" _)).
  vm_compute. apply list_elem_of_here.
Defined.
